(** * The Pomodoro timer of [FerramentasPage] (src/app.jsx)

    The component keeps four React state cells ([timeLeft], [phase],
    [cycle], [running]) and, while [running], an interval whose callback
    runs once per second.  This file embeds the component's state, its
    setters, the interval callback, the [start] / pause / [reset] handlers
    and the [minutes] / [seconds] strings that the page renders, and proves
    the properties of the focus-cycle timer about them.

    Numbers.  A JavaScript number holding an integer is modelled as [Z].
    The operations used here ([- 1], [+ 1], [%], [Math.floor (_ / 60)],
    [String]) are exact on integers of magnitude below 2^53, which covers
    every value the component can hold in any run of fewer than 2^53 ticks
    (see [cycle_bounded_by_ticks] and [run_in_bounds]).  JavaScript's [%]
    takes the sign of the dividend: it is [Z.rem].

    The second part of the file does the same for the pages that list
    rows of the backend: the metrics of [DashboardPage], the filters,
    columns, realtime handlers and drop handler of [KanbanPage], and the
    daily list and the event form of [AgendaPage]. *)

From Stdlib Require Import ZArith Lia Bool List String Ascii DecimalString.
From Stdlib Require DecimalPos.
Import ListNotations.
Local Open Scope Z_scope.

(** ** Component state *)

(** The three values ever stored in the [phase] cell: the strings
    ["work"], ["shortBreak"] and ["longBreak"]. *)
Inductive Phase : Set :=
  | Work
  | ShortBreak
  | LongBreak.

Definition phase_eqb (p q : Phase) : bool :=
  match p, q with
  | Work, Work | ShortBreak, ShortBreak | LongBreak, LongBreak => true
  | _, _ => false
  end.

(** The four [useState] cells of the component. *)
Record Session : Set := mkSession {
  timeLeft : Z;
  phase : Phase;
  cycle : Z;
  running : bool
}.

Definition workDuration : Z := 25 * 60.
Definition shortBreak : Z := 5 * 60.
Definition longBreak : Z := 15 * 60.

(** The values passed to [useState] on the first render. *)
Definition initial : Session :=
  {| timeLeft := workDuration; phase := Work; cycle := 1; running := false |}.

(** ** State setters

    A handler is a computation over the component's cells.  Each setter
    writes one cell; a setter called with a function applies it to the
    cell's current value, and that function may itself call setters (the
    [setTimeLeft] updater of the interval does). *)
Module Hooks.

Definition M (A : Type) : Type := Session -> A * Session.

Definition ret {A} (a : A) : M A := fun s => (a, s).

Definition bind {A B} (m : M A) (k : A -> M B) : M B :=
  fun s => let (a, s') := m s in k a s'.

Definition exec {A} (m : M A) (s : Session) : Session := snd (m s).

Definition setTimeLeft (v : Z) : M unit :=
  fun s => (tt, {| timeLeft := v; phase := phase s;
                   cycle := cycle s; running := running s |}).

Definition setPhase (p : Phase) : M unit :=
  fun s => (tt, {| timeLeft := timeLeft s; phase := p;
                   cycle := cycle s; running := running s |}).

Definition setCycle (c : Z) : M unit :=
  fun s => (tt, {| timeLeft := timeLeft s; phase := phase s;
                   cycle := c; running := running s |}).

Definition setRunning (b : bool) : M unit :=
  fun s => (tt, {| timeLeft := timeLeft s; phase := phase s;
                   cycle := cycle s; running := b |}).

(** [setTimeLeft((prev) => ...)]: the updater receives the current value,
    runs (with its own setter calls) and its result is stored. *)
Definition setTimeLeftWith (f : Z -> M Z) : M unit :=
  fun s => bind (f (timeLeft s)) setTimeLeft s.

(** [setCycle((c) => ...)]. *)
Definition setCycleWith (f : Z -> Z) : M unit :=
  fun s => setCycle (f (cycle s)) s.

End Hooks.

Import Hooks.

Notation "x <- m ;; k" := (bind m (fun x => k))
  (at level 61, m at next level, right associativity).
Notation "m ;; k" := (bind m (fun _ => k))
  (at level 61, right associativity).

(** ** The interval callback and the handlers *)

(** The callback installed by the effect.  [phase0] and [cycle0] are the
    values of [phase] and [cycle] captured by the closure; [prev] is the
    current [timeLeft]. *)
Definition interval_callback (phase0 : Phase) (cycle0 : Z) : M unit :=
  setTimeLeftWith (fun prev =>
    if 0 <? prev then ret (prev - 1)
    else if phase_eqb phase0 Work then
      setPhase (if Z.rem cycle0 4 =? 0 then LongBreak else ShortBreak) ;;
      ret (if Z.rem cycle0 4 =? 0 then longBreak else shortBreak)
    else
      setPhase Work ;;
      setCycleWith (fun c => c + 1) ;;
      ret workDuration).

(** The effect depends on [running], [phase] and [cycle]: it installs no
    interval when [running] is false, and is re-run, capturing the new
    values, whenever one of the three changes.  So the callback that fires
    in a state [s] is the one that captured [phase s] and [cycle s]. *)
Definition effect (s : Session) : option (M unit) :=
  if negb (running s) then None
  else Some (interval_callback (phase s) (cycle s)).

(** One firing of the interval, if there is one. *)
Definition tick (s : Session) : Session :=
  match effect s with
  | None => s
  | Some callback => exec callback s
  end.

Definition start : M unit := setRunning true.

(** The handler of the "Pausar" button, [() => setRunning(false)]. *)
Definition pause : M unit := setRunning false.

Definition reset : M unit :=
  setRunning false ;;
  setPhase Work ;;
  setCycle 1 ;;
  setTimeLeft workDuration.

(** [n] consecutive firings of the interval. *)
Definition ticks (n : nat) (s : Session) : Session := Nat.iter n tick s.

(** ** The commands of the timer and the states they reach *)

Inductive Command : Set :=
  | Start
  | Pause
  | Reset
  | Tick.

Definition perform (s : Session) (c : Command) : Session :=
  match c with
  | Start => exec start s
  | Pause => exec pause s
  | Reset => exec reset s
  | Tick => tick s
  end.

Definition run (cs : list Command) (s : Session) : Session :=
  fold_left perform cs s.

Definition reachable (s : Session) : Prop :=
  exists cs, s = run cs initial.

(** The length of a phase in seconds. *)
Definition phaseDuration (p : Phase) : Z :=
  match p with
  | Work => 1500
  | ShortBreak => 300
  | LongBreak => 900
  end.

(** The bounds of the timer's data model. *)
Definition in_bounds (s : Session) : Prop :=
  0 <= timeLeft s <= phaseDuration (phase s) /\ 1 <= cycle s.

Definition is_break (p : Phase) : bool := negb (phase_eqb p Work).

(** ** The rendered time *)

(** [String(n)] for an integer [n]: its decimal digits, with a leading
    minus sign when negative. *)
Definition js_String (n : Z) : string :=
  NilZero.string_of_int (Z.to_int n).

(** [count] copies of [fill], one after the other. *)
Fixpoint repeat_string (fill : string) (count : nat) : string :=
  match count with
  | O => EmptyString
  | S k => fill ++ repeat_string fill k
  end.

(** [s.padStart(maxLength, fillString)]: [s] itself when it is already
    [maxLength] long or longer, or when [fillString] is empty; otherwise
    [s] preceded by [fillString] repeated and cut to the missing length. *)
Definition padStart (s : string) (maxLength : nat) (fillString : string)
  : string :=
  let stringLength := String.length s in
  if (maxLength <=? stringLength)%nat then s
  else if (String.length fillString =? 0)%nat then s
  else
    let fillLen := (maxLength - stringLength)%nat in
    substring 0 fillLen (repeat_string fillString fillLen) ++ s.

Definition minutes (s : Session) : string :=
  padStart (js_String (timeLeft s / 60)) 2 "0".

Definition seconds (s : Session) : string :=
  padStart (js_String (Z.rem (timeLeft s) 60)) 2 "0".

(** The pair the page renders as [{minutes}:{seconds}]. *)
Definition display (s : Session) : string * string :=
  (minutes s, seconds s).

(** The character of a decimal digit. *)
Definition digit_char (d : Z) : ascii :=
  ascii_of_nat (48 + Z.to_nat d).

(** A number written in two digits, as the display is described: the
    tens digit then the units digit, the tens digit being [0] for a
    number below ten.  A number of three digits or more is written in
    full. *)
Definition two_digits (v : Z) : string :=
  if v <? 100
  then String (digit_char (v / 10)) (String (digit_char (v mod 10)) EmptyString)
  else js_String v.


(** ** Runs of the started timer *)

(** The timer just started: the initial state with [running] set. *)
Definition started : Session := exec start initial.

Record Transition : Set := mkTransition {
  at_tick : Z;
  from_phase : Phase;
  from_cycle : Z;
  to_phase : Phase;
  to_cycle : Z
}.

(** The phase changes seen during [n] ticks from [s], the ticks being
    numbered from [k + 1]: for each, the phase and cycle number just
    before the tick and just after it. *)
Fixpoint transitions_from (k : Z) (n : nat) (s : Session)
  : list Transition :=
  match n with
  | O => []
  | S n' =>
      let s' := tick s in
      let rest := transitions_from (k + 1) n' s' in
      if phase_eqb (phase s) (phase s') then rest
      else mkTransition (k + 1) (phase s) (cycle s) (phase s') (cycle s')
           :: rest
  end.

Definition transitions (n : nat) (s : Session) : list Transition :=
  transitions_from 0 n s.

Definition into_break (t : Transition) : bool := is_break (to_phase t).

(** Four work intervals of 1501 ticks, three short breaks of 301 and one
    long break of 901. *)
Definition four_intervals : nat := 4 * 1501 + 3 * 301 + 901.

(** The kind of break agrees with the cycle number. *)
Definition break_kind_ok (s : Session) : Prop :=
  (phase s = LongBreak -> cycle s mod 4 = 0) /\
  (phase s = ShortBreak -> cycle s mod 4 <> 0).

(** * The pages that list rows of the backend

    [DashboardPage], [KanbanPage] and [AgendaPage] keep the rows they
    fetched in a state cell and compute what they show from it.  A row is
    a record of the columns the pages read; a column that can be [null]
    is an [option].  Strings are sequences of characters compared one by
    one.  What the pages take from the JavaScript platform and the clock
    is a parameter: the case mappings of strings, the time value of a
    parsed date, the current time, and the backend's answer to a request. *)

(** [toLowerCase] and [toUpperCase] of a string, and the time value in
    milliseconds of [new Date(s)] for a string [s], [None] standing for
    an invalid date (whose time value is [NaN]). *)
Class Platform : Type := {
  toLowerCase : string -> string;
  toUpperCase : string -> string;
  Date_parse : string -> option Z
}.

(** A string in a condition: the empty string counts as false. *)
Definition truthy (s : string) : bool := negb (String.eqb s "").

(** [x === s] for a nullable column [x] and a string [s]. *)
Definition strict_eq (x : option string) (s : string) : bool :=
  match x with
  | Some v => String.eqb v s
  | None => false
  end.

(** [s.includes(search)]: [search] occurs somewhere in [s]. *)
Fixpoint includes (s search : string) : bool :=
  prefix search s ||
  match s with
  | EmptyString => false
  | String _ rest => includes rest search
  end.

(** The time value of [new Date(x)] for a nullable column [x]:
    [new Date(null)] is the epoch. *)
Definition Date_value {P : Platform} (x : option string) : option Z :=
  match x with
  | None => Some 0
  | Some s => Date_parse s
  end.

(** [a < b], [a <= b] and [a >= b] on time values: a comparison with
    [NaN] is false. *)
Definition time_lt (a b : option Z) : bool :=
  match a, b with
  | Some x, Some y => x <? y
  | _, _ => false
  end.

Definition time_le (a b : option Z) : bool :=
  match a, b with
  | Some x, Some y => x <=? y
  | _, _ => false
  end.

Definition time_ge (a b : option Z) : bool := time_le b a.

Module Task.

(** A row of the [tasks] table. *)
Record t : Set := mk {
  id : string;
  title : string;
  status : string;
  client_id : option string;
  user_id : option string;
  priority : option string;
  tags : option string;
  start_at : option string;
  end_at : option string
}.

(** [{ ...t, status: newStatus }]. *)
Definition with_status (x : t) (newStatus : string) : t :=
  {| id := id x; title := title x; status := newStatus;
     client_id := client_id x; user_id := user_id x;
     priority := priority x; tags := tags x;
     start_at := start_at x; end_at := end_at x |}.

End Task.

(** ** [DashboardPage] *)
Module Dashboard.

(** The five numbers of the metric cards. *)
Record Metrics : Set := mkMetrics {
  total : nat;
  completed : nat;
  pending : nat;
  overdue : nat;
  activeClients : nat
}.

Definition is_overdue {P : Platform} (now : Z) (t : Task.t) : bool :=
  time_lt (Date_value (Task.end_at t)) (Some now) &&
  negb (String.eqb (Task.status t) "concluido").

Definition same_value (x y : option string) : {x = y} + {x <> y}.
Proof. decide equality. apply string_dec. Defined.

(** The size of [new Set(xs)]: the number of distinct values, [null]
    being a value like the others. *)
Definition Set_size (xs : list (option string)) : nat :=
  List.length (nodup same_value xs).

(** The metrics computed at a render at time [now]. *)
Definition metrics {P : Platform} (now : Z) (tasks : list Task.t) : Metrics :=
  {| total := List.length tasks;
     completed :=
       List.length
         (filter (fun t => String.eqb (Task.status t) "concluido") tasks);
     pending :=
       List.length
         (filter (fun t => String.eqb (Task.status t) "pendente") tasks);
     overdue := List.length (filter (is_overdue now) tasks);
     activeClients := Set_size (map Task.client_id tasks) |}.

(** [tasks.slice(0, 5)], the list under "Tarefas Recentes". *)
Definition recent (tasks : list Task.t) : list Task.t := firstn 5 tasks.

End Dashboard.

(** ** [KanbanPage] *)
Module Kanban.

Record Filters : Set := mkFilters {
  search : string;
  client : string;
  user : string;
  priority : string;
  tag : string;
  dateFrom : string;
  dateTo : string
}.

(** The filters of the first render: all empty. *)
Definition noFilters : Filters := mkFilters "" "" "" "" "" "" "".

(** The callback of [tasks.filter] in [filteredTasks]. *)
Definition matches {P : Platform} (filters : Filters) (task : Task.t) : bool :=
  let matchesSearch :=
    if truthy (search filters)
    then includes (toLowerCase (Task.title task))
                  (toLowerCase (search filters))
    else true in
  let matchesClient :=
    if truthy (client filters)
    then strict_eq (Task.client_id task) (client filters) else true in
  let matchesUser :=
    if truthy (user filters)
    then strict_eq (Task.user_id task) (user filters) else true in
  let matchesPriority :=
    if truthy (priority filters)
    then strict_eq (Task.priority task) (priority filters) else true in
  let matchesTag :=
    if truthy (tag filters)
    then includes
           (toLowerCase (match Task.tags task with
                         | Some s => if truthy s then s else ""%string
                         | None => ""%string
                         end))
           (toLowerCase (tag filters))
    else true in
  let date := Date_value (Task.start_at task) in
  let matchesDateFrom :=
    if truthy (dateFrom filters)
    then time_ge date (Date_parse (dateFrom filters)) else true in
  let matchesDateTo :=
    if truthy (dateTo filters)
    then time_le date (Date_parse (dateTo filters)) else true in
  matchesSearch && matchesClient && matchesUser && matchesPriority &&
  matchesTag && matchesDateFrom && matchesDateTo.

Definition filteredTasks {P : Platform}
  (tasks : list Task.t) (filters : Filters) : list Task.t :=
  filter (matches filters) tasks.

Record Column : Set := mkColumn {
  id : string;
  title : string;
  tasks : list Task.t
}.

Definition statuses : list string :=
  ["pendente"; "em_andamento"; "concluido"]%string.

(** [s.replace(/_/g, " ")]. *)
Fixpoint replace_underscores (s : string) : string :=
  match s with
  | EmptyString => EmptyString
  | String c rest =>
      String (if Ascii.eqb c "_" then " "%char else c)
             (replace_underscores rest)
  end.

(** [s.replace(/^./, (c) => c.toUpperCase())]: the first character, when
    it is not a line break, is replaced by its upper case. *)
Definition capitalize {P : Platform} (s : string) : string :=
  match s with
  | EmptyString => EmptyString
  | String c rest =>
      if Ascii.eqb c "010" || Ascii.eqb c "013" then s
      else toUpperCase (String c EmptyString) ++ rest
  end.

(** The three columns of the board. *)
Definition columns {P : Platform} (filteredTasks : list Task.t)
  : list Column :=
  map (fun status =>
         {| id := status;
            title := capitalize (replace_underscores status);
            tasks := filter (fun task => String.eqb (Task.status task) status)
                            filteredTasks |})
      statuses.

(** The handlers of the realtime subscription, each the updater it
    passes to [setTasks]. *)
Definition on_INSERT (payload_new : Task.t) (prev : list Task.t)
  : list Task.t :=
  prev ++ [payload_new].

Definition on_UPDATE (payload_new : Task.t) (prev : list Task.t)
  : list Task.t :=
  map (fun t => if String.eqb (Task.id t) (Task.id payload_new)
                then payload_new else t) prev.

Definition on_DELETE (payload_old_id : string) (prev : list Task.t)
  : list Task.t :=
  filter (fun t => negb (String.eqb (Task.id t) payload_old_id)) prev.

(** What [handleDragEnd] reads of the event: [active.id],
    [active.data.current?.status] ([None] when undefined) and [over.id]
    ([None] when [over] is null). *)
Record DragEndEvent : Set := mkDragEndEvent {
  active_id : string;
  active_status : option string;
  over_id : option string
}.

(** [supabase.from("tasks").update({ status }).eq("id", taskId)]. *)
Record UpdateRequest : Set := mkUpdateRequest {
  update_status : string;
  eq_id : string
}.

(** [handleDragEnd]: the new task list and the request sent, if any. *)
Definition handleDragEnd (event : DragEndEvent) (tasks : list Task.t)
  : list Task.t * option UpdateRequest :=
  match over_id event with
  | None => (tasks, None)
  | Some over =>
      if match active_status event with
         | Some st => String.eqb st over
         | None => false
         end
      then (tasks, None)
      else
        let taskId := active_id event in
        let newStatus := over in
        (map (fun t => if String.eqb (Task.id t) taskId
                       then Task.with_status t newStatus else t) tasks,
         Some (mkUpdateRequest newStatus taskId))
  end.

End Kanban.

Module Event.

(** A row of the [events] table. *)
Record t : Set := mk {
  id : string;
  title : string;
  start_at : option string;
  end_at : option string;
  client_id : option string;
  user_id : option string
}.

End Event.

(** ** [AgendaPage] *)
Module Agenda.

(** [s.split("T")[0]]: the part of [s] before its first ["T"], all of
    [s] when it has none. *)
Fixpoint before_T (s : string) : string :=
  match s with
  | EmptyString => EmptyString
  | String c rest =>
      if Ascii.eqb c "T" then EmptyString else String c (before_T rest)
  end.

(** The events listed for the selected date;
    [ev.start_at?.split("T")[0]] is undefined for a null [start_at]. *)
Definition dailyEvents (events : list Event.t) (selectedDate : string)
  : list Event.t :=
  filter (fun ev => match Event.start_at ev with
                    | Some s => String.eqb (before_T s) selectedDate
                    | None => false
                    end) events.

Record Form : Set := mkForm {
  title : string;
  start : string;
  end_ : string;
  client_id : string;
  user_id : string
}.

Record State : Set := mkState {
  events : list Event.t;
  selectedDate : string;
  modalOpen : bool;
  form : Form
}.

Definition openModal (st : State) : State :=
  {| events := events st;
     selectedDate := selectedDate st;
     modalOpen := true;
     form := {| title := "";
                start := selectedDate st ++ "T09:00";
                end_ := selectedDate st ++ "T10:00";
                client_id := "";
                user_id := "" |} |}.

(** The row [saveEvent] sends to [insert]. *)
Record NewEvent : Set := mkNewEvent {
  new_title : string;
  new_start_at : string;
  new_end_at : string;
  new_client_id : string;
  new_user_id : string
}.

Definition insert_row (f : Form) : NewEvent :=
  {| new_title := title f; new_start_at := start f; new_end_at := end_ f;
     new_client_id := client_id f; new_user_id := user_id f |}.

(** The backend's answer to an insert: the rows it stored, or an error. *)
Inductive Response : Set :=
  | Ok (data : list Event.t)
  | Err (message : string).

(** [saveEvent], once the insert of [insert_row (form st)] has been
    answered. *)
Definition saveEvent (st : State) (answer : Response) : State :=
  {| events := match answer with
               | Ok data => events st ++ data
               | Err _ => events st
               end;
     selectedDate := selectedDate st;
     modalOpen := false;
     form := form st |}.

End Agenda.

(** ** Auxiliary notions for the statements *)

(** [g] asks for no more than [f]: each of its fields is empty or is
    the field of [f]. *)
Definition relaxes (g f : Kanban.Filters) : Prop :=
  (Kanban.search g = ""%string \/ Kanban.search g = Kanban.search f) /\
  (Kanban.client g = ""%string \/ Kanban.client g = Kanban.client f) /\
  (Kanban.user g = ""%string \/ Kanban.user g = Kanban.user f) /\
  (Kanban.priority g = ""%string \/ Kanban.priority g = Kanban.priority f) /\
  (Kanban.tag g = ""%string \/ Kanban.tag g = Kanban.tag f) /\
  (Kanban.dateFrom g = ""%string \/ Kanban.dateFrom g = Kanban.dateFrom f) /\
  (Kanban.dateTo g = ""%string \/ Kanban.dateTo g = Kanban.dateTo f).

(** A platform to run examples on: the case mappings act on the letters
    A to Z, and two dates are known. *)
Definition ascii_lower (c : ascii) : ascii :=
  let n := nat_of_ascii c in
  if ((65 <=? n) && (n <=? 90))%nat then ascii_of_nat (n + 32) else c.

Definition ascii_upper (c : ascii) : ascii :=
  let n := nat_of_ascii c in
  if ((97 <=? n) && (n <=? 122))%nat then ascii_of_nat (n - 32) else c.

Fixpoint map_string (f : ascii -> ascii) (s : string) : string :=
  match s with
  | EmptyString => EmptyString
  | String c rest => String (f c) (map_string f rest)
  end.

Definition example_platform : Platform :=
  {| toLowerCase := map_string ascii_lower;
     toUpperCase := map_string ascii_upper;
     Date_parse := fun s =>
       if String.eqb s "2024-03-01" then Some 1709251200000
       else if String.eqb s "2024-03-15" then Some 1710460800000
       else None |}.

(** Rows for the examples. *)
Definition example_task (id status : string) (start_at : option string)
  : Task.t :=
  Task.mk id "Proposta Comercial" status (Some "c1"%string) None
          (Some "alta"%string) None start_at None.

(** * Properties *)

Lemma phase_eqb_spec p q : reflect (p = q) (phase_eqb p q).
Proof. destruct p, q; constructor; congruence. Qed.

Example display_1500 : display initial = ("25"%string, "00"%string).
Proof. reflexivity. Qed.

(** ** One firing of the interval *)

(** The three outcomes of a firing, with the monad unfolded. *)
Lemma tick_unfold (s : Session) :
  tick s =
  if running s then
    if 0 <? timeLeft s then
      mkSession (timeLeft s - 1) (phase s) (cycle s) (running s)
    else if phase_eqb (phase s) Work then
      mkSession (if Z.rem (cycle s) 4 =? 0 then longBreak else shortBreak)
                (if Z.rem (cycle s) 4 =? 0 then LongBreak else ShortBreak)
                (cycle s) (running s)
    else mkSession workDuration Work (cycle s + 1) (running s)
  else s.
Proof.
  unfold tick, effect.
  destruct (running s) eqn:Hrun; cbn [negb]; [|reflexivity].
  unfold exec, interval_callback, setTimeLeftWith, bind.
  destruct (0 <? timeLeft s); [rewrite <- Hrun; reflexivity|].
  destruct (phase_eqb (phase s) Work); rewrite <- Hrun; reflexivity.
Qed.

(** JavaScript's remainder and the mathematical one vanish together. *)
Lemma rem_zero_iff_mod_zero (a b : Z) :
  b <> 0 -> (Z.rem a b = 0 <-> a mod b = 0).
Proof.
  intros Hb. rewrite Z.rem_divide, Z.mod_divide by assumption. reflexivity.
Qed.

Lemma rem4_eqb_mod (c : Z) : (Z.rem c 4 =? 0) = (c mod 4 =? 0).
Proof.
  apply eq_true_iff_eq. rewrite !Z.eqb_eq.
  apply rem_zero_iff_mod_zero. discriminate.
Qed.

(** C1. While the timer is running, one tick takes one second off a
    positive remaining time and changes nothing else; at zero in the work
    phase it moves to the long break (900 s) when the cycle number is a
    multiple of four and to the short break (300 s) otherwise, the cycle
    number staying as it is; at zero in either break it moves to work
    (1500 s) and adds one to the cycle number. *)
Theorem tick_running_rule (s : Session) (Hrun : running s = true) :
  (0 < timeLeft s ->
     tick s = mkSession (timeLeft s - 1) (phase s) (cycle s) (running s)) /\
  (timeLeft s = 0 -> phase s = Work -> cycle s mod 4 = 0 ->
     tick s = mkSession 900 LongBreak (cycle s) true) /\
  (timeLeft s = 0 -> phase s = Work -> cycle s mod 4 <> 0 ->
     tick s = mkSession 300 ShortBreak (cycle s) true) /\
  (timeLeft s = 0 -> phase s = ShortBreak \/ phase s = LongBreak ->
     tick s = mkSession 1500 Work (cycle s + 1) true).
Proof.
  rewrite tick_unfold, Hrun, rem4_eqb_mod.
  split; [|split; [|split]].
  - intros Hpos. apply Z.ltb_lt in Hpos. rewrite Hpos. reflexivity.
  - intros Ht Hp Hc. rewrite Ht, Hp. cbn.
    apply Z.eqb_eq in Hc. rewrite Hc. reflexivity.
  - intros Ht Hp Hc. rewrite Ht, Hp. cbn.
    apply Z.eqb_neq in Hc. rewrite Hc. reflexivity.
  - intros Ht [Hp | Hp]; rewrite Ht, Hp; reflexivity.
Qed.

Lemma tick_running_rule_witness :
  tick (mkSession 7 ShortBreak 3 true) = mkSession 6 ShortBreak 3 true /\
  tick (mkSession 0 Work 8 true) = mkSession 900 LongBreak 8 true /\
  tick (mkSession 0 Work 6 true) = mkSession 300 ShortBreak 6 true /\
  tick (mkSession 0 LongBreak 4 true) = mkSession 1500 Work 5 true.
Proof.
  split; [|split; [|split]].
  - apply (tick_running_rule (mkSession 7 ShortBreak 3 true) eq_refl).
    reflexivity.
  - apply (tick_running_rule (mkSession 0 Work 8 true) eq_refl);
      reflexivity.
  - apply (tick_running_rule (mkSession 0 Work 6 true) eq_refl);
      [reflexivity | reflexivity | discriminate].
  - apply (tick_running_rule (mkSession 0 LongBreak 4 true) eq_refl);
      [reflexivity | right; reflexivity].
Defined.

(** C8. While the timer is not running a tick changes no field. *)
Theorem tick_paused_noop (s : Session) (Hrun : running s = false) :
  tick s = s.
Proof. rewrite tick_unfold, Hrun. reflexivity. Qed.

Lemma tick_paused_noop_witness :
  tick (mkSession 0 LongBreak 4 false) = mkSession 0 LongBreak 4 false.
Proof. apply (tick_paused_noop (mkSession 0 LongBreak 4 false)). reflexivity. Defined.

(** ** The handlers *)

(** C3. Whatever the state, [reset] leaves the work phase with 1500
    seconds, cycle 1 and the timer stopped. *)
Theorem reset_state (s : Session) :
  exec reset s = mkSession 1500 Work 1 false.
Proof. reflexivity. Qed.

(** C7. [start] sets [running] and [pause] clears it; neither touches
    the phase, the remaining time or the cycle number, and doing either
    twice is the same as doing it once. *)
Theorem start_pause_frame (s : Session) :
  exec start s = mkSession (timeLeft s) (phase s) (cycle s) true /\
  exec pause s = mkSession (timeLeft s) (phase s) (cycle s) false /\
  exec start (exec start s) = exec start s /\
  exec pause (exec pause s) = exec pause s.
Proof. split; [|split; [|split]]; reflexivity. Qed.

(** ** Bounds on the reachable states *)

Lemma phaseDuration_constants :
  phaseDuration Work = workDuration /\
  phaseDuration ShortBreak = shortBreak /\
  phaseDuration LongBreak = longBreak.
Proof. split; [|split]; reflexivity. Qed.

Lemma initial_in_bounds : in_bounds initial.
Proof. unfold in_bounds; cbn. lia. Qed.

Lemma tick_in_bounds (s : Session) : in_bounds s -> in_bounds (tick s).
Proof.
  unfold in_bounds. intros [Ht Hc]. rewrite tick_unfold.
  destruct (running s); [|auto].
  destruct (0 <? timeLeft s) eqn:Hpos; cbn.
  - apply Z.ltb_lt in Hpos. lia.
  - destruct (phase_eqb (phase s) Work); cbn.
    + destruct (Z.rem (cycle s) 4 =? 0); cbn; lia.
    + lia.
Qed.

Lemma perform_in_bounds (s : Session) (c : Command) :
  in_bounds s -> in_bounds (perform s c).
Proof.
  destruct c; cbn [perform]; intros H.
  - exact H.
  - exact H.
  - unfold in_bounds; cbn. lia.
  - apply tick_in_bounds, H.
Qed.

Lemma run_in_bounds (cs : list Command) :
  forall s, in_bounds s -> in_bounds (run cs s).
Proof.
  induction cs as [|c cs IH]; intros s H; cbn.
  - exact H.
  - apply IH, perform_in_bounds, H.
Qed.

(** C2. In every state reached from the initial one by [start], pause,
    [reset] and ticks, the remaining time lies between 0 and the length of
    the current phase (1500, 300 or 900 seconds) and the cycle number is
    at least 1. *)
Theorem reachable_in_bounds (s : Session) (Hreach : reachable s) :
  0 <= timeLeft s <= phaseDuration (phase s) /\ 1 <= cycle s.
Proof.
  destruct Hreach as [cs ->]. apply run_in_bounds, initial_in_bounds.
Qed.

Lemma reachable_in_bounds_witness :
  reachable (mkSession 1498 Work 1 false) /\
  (0 <= 1498 <= 1500 /\ 1 <= 1).
Proof.
  assert (H : reachable (mkSession 1498 Work 1 false))
    by (exists [Start; Tick; Tick; Pause]; reflexivity).
  split; [exact H | exact (reachable_in_bounds _ H)].
Defined.

(** ** The cycle number along the ticks *)

Lemma cycle_tick_cases (s : Session) :
  (is_break (phase s) = true /\ phase (tick s) = Work /\
   cycle (tick s) = cycle s + 1) \/
  (~ (is_break (phase s) = true /\ phase (tick s) = Work) /\
   cycle (tick s) = cycle s).
Proof.
  rewrite tick_unfold. unfold is_break.
  destruct (running s).
  - destruct (0 <? timeLeft s); cbn.
    + right. split; [|reflexivity].
      destruct (phase s); cbn; intros [? ?]; discriminate.
    + destruct (phase s); cbn.
      * right. split; [|reflexivity]. intros [? ?]; discriminate.
      * left. auto.
      * left. auto.
  - right. split; [|reflexivity].
    destruct (phase s); cbn; intros [? ?]; discriminate.
Qed.

Lemma cycle_tick_le (s : Session) : cycle s <= cycle (tick s).
Proof. destruct (cycle_tick_cases s) as [(_ & _ & H) | [_ H]]; lia. Qed.

Lemma ticks_S (n : nat) (s : Session) : ticks (S n) s = tick (ticks n s).
Proof. reflexivity. Qed.

Lemma ticks_add (n m : nat) (s : Session) :
  ticks (n + m) s = ticks n (ticks m s).
Proof. unfold ticks. apply Nat.iter_add. Qed.

Lemma cycle_ticks_le (n : nat) (s : Session) : cycle s <= cycle (ticks n s).
Proof.
  induction n as [|n IH]; [cbn; lia|].
  rewrite ticks_S. pose proof (cycle_tick_le (ticks n s)). lia.
Qed.

(** The cycle number grows by at most one per tick, so it stays far below
    2^53 in any run that can be observed. *)
Lemma cycle_bounded_by_ticks (n : nat) (s : Session) :
  cycle (ticks n s) <= cycle s + Z.of_nat n.
Proof.
  induction n as [|n IH]; [cbn; lia|].
  rewrite ticks_S.
  destruct (cycle_tick_cases (ticks n s)) as [(_ & _ & H) | [_ H]]; lia.
Qed.

(** C6. Along any sequence of ticks the cycle number never goes down; a
    tick adds exactly one to it when it takes the phase from a break back
    to work, and leaves it as it is otherwise. *)
Theorem cycle_monotone :
  (forall n m s, (n <= m)%nat -> cycle (ticks n s) <= cycle (ticks m s)) /\
  (forall s, is_break (phase s) = true /\ phase (tick s) = Work ->
             cycle (tick s) = cycle s + 1) /\
  (forall s, ~ (is_break (phase s) = true /\ phase (tick s) = Work) ->
             cycle (tick s) = cycle s) /\
  (forall s, cycle (tick s) = cycle s + 1 <->
             is_break (phase s) = true /\ phase (tick s) = Work).
Proof.
  split; [|split; [|split]].
  - intros n m s Hnm.
    replace m with ((m - n) + n)%nat by lia.
    rewrite ticks_add. apply cycle_ticks_le.
  - intros s H.
    destruct (cycle_tick_cases s) as [(_ & _ & Hc) | [Hn _]];
      [exact Hc | contradiction].
  - intros s H.
    destruct (cycle_tick_cases s) as [(Hb & Hw & _) | [_ Hc]];
      [exfalso; apply H; auto | exact Hc].
  - intros s.
    destruct (cycle_tick_cases s) as [(Hb & Hw & Hc) | [Hn Hc]].
    + split; auto.
    + split; [lia | contradiction].
Qed.

(** ** Running through a phase *)

(** A running timer with [n] seconds or more left counts [n] ticks down
    and nothing else happens. *)
Lemma ticks_countdown (n : nat) :
  forall s, running s = true -> Z.of_nat n <= timeLeft s ->
  ticks n s = mkSession (timeLeft s - Z.of_nat n) (phase s) (cycle s) true.
Proof.
  induction n as [|n IH]; intros s Hrun Hle.
  - cbn. rewrite Z.sub_0_r, <- Hrun. destruct s; reflexivity.
  - rewrite ticks_S, IH by (assumption || lia).
    rewrite tick_unfold; cbn [running timeLeft phase cycle].
    replace (0 <? timeLeft s - Z.of_nat n) with true
      by (symmetry; apply Z.ltb_lt; lia).
    f_equal. lia.
Qed.

(** A phase entered with [d] seconds ends at the tick number [d + 1]:
    [d] ticks bring the remaining time to zero and the next one leaves
    the phase. *)
Lemma ticks_through_phase (s : Session) :
  running s = true -> 0 <= timeLeft s ->
  ticks (Z.to_nat (timeLeft s)) s = mkSession 0 (phase s) (cycle s) true /\
  ticks (S (Z.to_nat (timeLeft s))) s =
    tick (mkSession 0 (phase s) (cycle s) true).
Proof.
  intros Hrun Hnn.
  assert (H : ticks (Z.to_nat (timeLeft s)) s
              = mkSession 0 (phase s) (cycle s) true).
  { rewrite ticks_countdown by (assumption || lia). f_equal. lia. }
  split; [exact H | rewrite ticks_S, H; reflexivity].
Qed.

Lemma started_fields :
  running started = true /\ timeLeft started = 1500 /\
  phase started = Work /\ cycle started = 1.
Proof. split; [|split; [|split]]; reflexivity. Qed.

Lemma ticks_1500_started : ticks 1500 started = mkSession 0 Work 1 true.
Proof.
  destruct started_fields as (Hrun & Ht & _ & _).
  destruct (ticks_through_phase started Hrun) as [H0 _];
    [rewrite Ht; lia|].
  rewrite Ht in H0. exact H0.
Qed.

(** C4, as the component behaves.  After exactly 1500 ticks of the
    started timer the work phase is still on with 0 seconds left and
    cycle 1; the short break with 300 seconds, cycle 1, begins when the
    1501st tick completes. *)
Theorem first_work_phase_ticks :
  ticks 1500 started = mkSession 0 Work 1 true /\
  ticks 1501 started = mkSession 300 ShortBreak 1 true.
Proof.
  split; [exact ticks_1500_started|].
  rewrite (ticks_S 1500), ticks_1500_started. reflexivity.
Qed.

(** C4, as stated, fails: the 1500th tick does not reach the short
    break. *)
Lemma first_work_phase_1500_not_break :
  ~ (phase (ticks 1500 started) = ShortBreak /\
     timeLeft (ticks 1500 started) = 300 /\
     cycle (ticks 1500 started) = 1).
Proof.
  rewrite ticks_1500_started. cbn. intros [Hp _]. discriminate.
Qed.

(** ** The first four work intervals *)

Lemma ticks_tick (n : nat) (s : Session) :
  ticks n (tick s) = ticks (S n) s.
Proof. unfold ticks. symmetry. apply Nat.iter_succ_r. Qed.

(** Every recorded phase change is a tick of the run: the one numbered
    [at_tick], taken from the state the earlier ticks produced. *)
Lemma transitions_from_sound (n : nat) :
  forall k s t, In t (transitions_from k n s) ->
  exists i, (i < n)%nat /\
    at_tick t = k + Z.of_nat i + 1 /\
    from_phase t = phase (ticks i s) /\
    from_cycle t = cycle (ticks i s) /\
    to_phase t = phase (ticks (S i) s) /\
    to_cycle t = cycle (ticks (S i) s) /\
    from_phase t <> to_phase t.
Proof.
  induction n as [|n IH]; intros k s t Hin; [destruct Hin|].
  cbn [transitions_from] in Hin.
  assert (Hrest : In t (transitions_from (k + 1) n (tick s)) ->
                  exists i, (i < S n)%nat /\
                    at_tick t = k + Z.of_nat i + 1 /\
                    from_phase t = phase (ticks i s) /\
                    from_cycle t = cycle (ticks i s) /\
                    to_phase t = phase (ticks (S i) s) /\
                    to_cycle t = cycle (ticks (S i) s) /\
                    from_phase t <> to_phase t).
  { intros H. destruct (IH _ _ _ H) as (i & Hi & Hk & H1 & H2 & H3 & H4 & H5).
    exists (S i). rewrite !ticks_tick in *.
    repeat split; try assumption; lia. }
  destruct (phase_eqb_spec (phase s) (phase (tick s))) as [Heq | Hne];
    [auto|].
  destruct Hin as [<- | Hin]; [|auto].
  exists O. cbn. repeat split; try assumption; lia.
Qed.

Lemma transitions_four_intervals :
  transitions four_intervals started =
  [ mkTransition 1501 Work 1 ShortBreak 1;
    mkTransition 1802 ShortBreak 1 Work 2;
    mkTransition 3303 Work 2 ShortBreak 2;
    mkTransition 3604 ShortBreak 2 Work 3;
    mkTransition 5105 Work 3 ShortBreak 3;
    mkTransition 5406 ShortBreak 3 Work 4;
    mkTransition 6907 Work 4 LongBreak 4;
    mkTransition 7808 LongBreak 4 Work 5 ].
Proof. vm_compute. reflexivity. Qed.

(** C5. The started timer goes through work, short break, work, short
    break, work, short break, work, long break and back to work.  The
    cycle number just before each of the seven phase changes that lead to
    the long break is 1, 1, 2, 2, 3, 3, 4; the four changes into a break
    start from cycles 1, 2, 3, 4 and the fourth, the one at cycle 4
    (a multiple of four), enters the long break; the cycle number is below
    5 until the tick that ends the long break, which makes it 5. *)
Theorem four_work_intervals :
  map (fun t => (from_phase t, to_phase t))
      (transitions four_intervals started) =
    [ (Work, ShortBreak); (ShortBreak, Work); (Work, ShortBreak);
      (ShortBreak, Work); (Work, ShortBreak); (ShortBreak, Work);
      (Work, LongBreak); (LongBreak, Work) ] /\
  map from_cycle (firstn 7 (transitions four_intervals started)) =
    [1; 1; 2; 2; 3; 3; 4] /\
  map (fun t => (from_cycle t, from_cycle t mod 4 =? 0, to_phase t))
      (filter into_break (transitions four_intervals started)) =
    [ (1, false, ShortBreak); (2, false, ShortBreak);
      (3, false, ShortBreak); (4, true, LongBreak) ] /\
  (forall n, (n < four_intervals)%nat -> cycle (ticks n started) <= 4) /\
  ticks four_intervals started = mkSession 1500 Work 5 true.
Proof.
  rewrite transitions_four_intervals.
  split; [reflexivity|]. split; [reflexivity|]. split; [reflexivity|].
  split; [|vm_compute; reflexivity].
  intros n Hn.
  assert (H : cycle (ticks (four_intervals - 1) started) = 4)
    by (vm_compute; reflexivity).
  rewrite <- H.
  replace (four_intervals - 1)%nat with ((four_intervals - 1 - n) + n)%nat
    by lia.
  rewrite ticks_add. apply cycle_ticks_le.
Qed.

(** ** The rendered time *)

(** A number of two digits or more prints as two characters or more. *)
Lemma js_String_length (v : Z) :
  10 <= v -> (2 <= String.length (js_String v))%nat.
Proof.
  intros Hv. destruct v as [|p|p]; try lia.
  unfold js_String. cbn [Z.to_int NilZero.string_of_int].
  pose proof (DecimalPos.Unsigned.of_to p) as Hof.
  destruct (Pos.to_uint p) as [|d|d|d|d|d|d|d|d|d|d];
    [discriminate Hof | ..];
    (destruct d;
     [ cbn in Hof; first [discriminate Hof | injection Hof as <-; lia]
     | cbn; lia .. ]).
Qed.

Lemma padStart_long (s fill : string) (n : nat) :
  (n <= String.length s)%nat -> padStart s n fill = s.
Proof.
  intros H. unfold padStart.
  apply Nat.leb_le in H. rewrite H. reflexivity.
Qed.

(** Below one hundred the padded string is the tens digit followed by the
    units digit. *)
Lemma padStart_below_100 (n : nat) :
  (n < 100)%nat ->
  padStart (js_String (Z.of_nat n)) 2 "0" = two_digits (Z.of_nat n).
Proof.
  intros Hn.
  do 100 (destruct n as [|n]; [reflexivity|]).
  lia.
Qed.

Lemma padStart_two_digits (v : Z) :
  0 <= v -> padStart (js_String v) 2 "0" = two_digits v.
Proof.
  intros Hv. destruct (Z.ltb_spec v 100) as [Hlt | Hge].
  - rewrite <- (Z2Nat.id v Hv). apply padStart_below_100. lia.
  - rewrite padStart_long by (apply js_String_length; lia).
    unfold two_digits.
    replace (v <? 100) with false by (symmetry; apply Z.ltb_ge; lia).
    reflexivity.
Qed.

Lemma two_digits_length (v : Z) :
  v < 100 -> String.length (two_digits v) = 2%nat.
Proof.
  intros Hv. unfold two_digits.
  apply Z.ltb_lt in Hv. rewrite Hv. reflexivity.
Qed.

Lemma display_two_digits_eq (s : Session) :
  0 <= timeLeft s ->
  display s = (two_digits (timeLeft s / 60), two_digits (timeLeft s mod 60)).
Proof.
  intros Hnn. unfold display, minutes, seconds.
  rewrite Z.rem_mod_nonneg by lia.
  rewrite !padStart_two_digits;
    [reflexivity | apply Z.mod_pos_bound; lia | apply Z.div_pos; lia].
Qed.

(** C9. [display] only reads the state: it returns the whole minutes of
    the remaining time and the seconds left over, each written in two
    digits with a leading zero where needed.  65 seconds show as 01 and
    05, and 0 seconds as 00 and 00. *)
Theorem display_minutes_seconds (s : Session) (Hnn : 0 <= timeLeft s) :
  display s = (two_digits (timeLeft s / 60), two_digits (timeLeft s mod 60)) /\
  (timeLeft s = 65 -> display s = ("01"%string, "05"%string)) /\
  (timeLeft s = 0 -> display s = ("00"%string, "00"%string)).
Proof.
  split; [apply display_two_digits_eq, Hnn|].
  unfold display, minutes, seconds.
  split; intros ->; reflexivity.
Qed.

Lemma display_minutes_seconds_witness :
  display (mkSession 65 ShortBreak 2 true) = ("01"%string, "05"%string).
Proof.
  assert (Hnn : 0 <= timeLeft (mkSession 65 ShortBreak 2 true))
    by (cbn; lia).
  apply (display_minutes_seconds _ Hnn). reflexivity.
Defined.

(** The padding adds characters and never removes any: a state with 6000
    seconds left, which no run reaches, would show three digits. *)
Example minutes_not_truncated :
  display (mkSession 6000 Work 1 false) = ("100"%string, "00"%string).
Proof. reflexivity. Qed.

(** C10. In every reachable state both strings of [display] are exactly
    two characters long: the remaining time is at most 1500 seconds, so
    the minutes are at most 25 and the seconds at most 59. *)
Theorem display_length_two (s : Session) (Hreach : reachable s) :
  String.length (fst (display s)) = 2%nat /\
  String.length (snd (display s)) = 2%nat /\
  timeLeft s <= 1500 /\
  0 <= timeLeft s / 60 <= 25 /\
  0 <= Z.rem (timeLeft s) 60 <= 59.
Proof.
  destruct Hreach as [cs ->].
  pose proof (run_in_bounds cs initial initial_in_bounds) as [[Hlo Hhi] _].
  set (s := run cs initial) in *.
  assert (Hmax : timeLeft s <= 1500)
    by (destruct (phase s); cbn in Hhi; lia).
  assert (Hmin : 0 <= timeLeft s / 60 <= 25).
  { split; [apply Z.div_pos; lia|].
    apply Z.div_le_upper_bound; lia. }
  assert (Hsec : 0 <= timeLeft s mod 60 < 60)
    by (apply Z.mod_pos_bound; lia).
  rewrite display_two_digits_eq by exact Hlo. cbn [fst snd].
  rewrite !two_digits_length by lia.
  rewrite Z.rem_mod_nonneg by lia.
  repeat split; lia.
Qed.

Lemma display_length_two_witness :
  String.length (fst (display (mkSession 1498 Work 1 false))) = 2%nat /\
  String.length (snd (display (mkSession 1498 Work 1 false))) = 2%nat.
Proof.
  assert (H : reachable (mkSession 1498 Work 1 false))
    by (exists [Start; Tick; Tick; Pause]; reflexivity).
  destruct (display_length_two _ H) as (Hm & Hs & _).
  split; [exact Hm | exact Hs].
Defined.

(** * Further properties of the timer *)

Lemma tick_running (s : Session) : running (tick s) = running s.
Proof.
  rewrite tick_unfold. destruct (running s) eqn:Hrun; [|exact Hrun].
  destruct (0 <? timeLeft s); [reflexivity|].
  destruct (phase_eqb (phase s) Work); reflexivity.
Qed.

Lemma ticks_running (n : nat) (s : Session) :
  running (ticks n s) = running s.
Proof.
  induction n as [|n IH]; [reflexivity|].
  rewrite ticks_S, tick_running. exact IH.
Qed.

(** X1. A tick never starts or stops the timer.  The phase changes only
    on a tick of a running timer that finds no time left, and the new
    phase then starts with its full length; in a reachable state "no time
    left" is exactly zero. *)
Theorem tick_phase_change :
  (forall s, running (tick s) = running s) /\
  (forall s, phase (tick s) <> phase s ->
     running s = true /\ timeLeft s <= 0 /\
     timeLeft (tick s) = phaseDuration (phase (tick s))) /\
  (forall s, reachable s -> phase (tick s) <> phase s -> timeLeft s = 0).
Proof.
  assert (Hchange : forall s, phase (tick s) <> phase s ->
            running s = true /\ timeLeft s <= 0 /\
            timeLeft (tick s) = phaseDuration (phase (tick s))).
  { intros s. rewrite tick_unfold.
    destruct (running s); [|intros H; contradiction H; reflexivity].
    destruct (Z.ltb_spec 0 (timeLeft s)) as [Hpos | Hle];
      [intros H; contradiction H; reflexivity|].
    intros _. split; [reflexivity|]. split; [exact Hle|].
    destruct (phase_eqb (phase s) Work); cbn;
      [destruct (Z.rem (cycle s) 4 =? 0)|]; reflexivity. }
  split; [exact tick_running|]. split; [exact Hchange|].
  intros s [cs ->] Hne.
  destruct (Hchange _ Hne) as (_ & Hle & _).
  pose proof (run_in_bounds cs initial initial_in_bounds) as [[Hlo _] _].
  lia.
Qed.

Lemma run_app (cs ds : list Command) (s : Session) :
  run (cs ++ ds) s = run ds (run cs s).
Proof. unfold run. apply fold_left_app. Qed.

Lemma perform_running (s : Session) (c : Command) :
  running (perform s c) =
  match c with
  | Start => true
  | Pause | Reset => false
  | Tick => running s
  end.
Proof. destruct c; cbn [perform]; try reflexivity. apply tick_running. Qed.

(** X2. Whatever the commands, the timer is running afterwards only if
    it was running before or [start] was among them, and it is stopped
    afterwards only if it was stopped before or pause or [reset] was among
    them: ticks alone never start or stop it. *)
Theorem running_only_by_command (cs : list Command) (s : Session) :
  (running (run cs s) = true -> running s = true \/ In Start cs) /\
  (running (run cs s) = false ->
     running s = false \/ In Pause cs \/ In Reset cs).
Proof.
  induction cs as [|c cs IH] using rev_ind; [cbn; auto|].
  rewrite run_app. cbn [run fold_left].
  rewrite perform_running.
  destruct IH as [IHt IHf].
  split; intros H; destruct c; try discriminate H.
  - right. apply in_or_app. right. left. reflexivity.
  - destruct (IHt H) as [? | ?]; [auto|].
    right. apply in_or_app. auto.
  - right. left. apply in_or_app. right. left. reflexivity.
  - right. right. apply in_or_app. right. left. reflexivity.
  - destruct (IHf H) as [? | [? | ?]]; [auto | |].
    + right. left. apply in_or_app. auto.
    + right. right. apply in_or_app. auto.
Qed.

Lemma tick_break_kind (s : Session) :
  break_kind_ok s -> break_kind_ok (tick s).
Proof.
  unfold break_kind_ok. intros [Hl Hs]. rewrite tick_unfold.
  destruct (running s); [|auto].
  destruct (0 <? timeLeft s); cbn; [auto|].
  destruct (phase s); cbn; try (split; discriminate).
  rewrite rem4_eqb_mod.
  destruct (Z.eqb_spec (cycle s mod 4) 0); split;
    intros; congruence.
Qed.

Lemma perform_break_kind (s : Session) (c : Command) :
  break_kind_ok s -> break_kind_ok (perform s c).
Proof.
  destruct c; cbn [perform]; intros H;
    [exact H | exact H | split; discriminate | apply tick_break_kind, H].
Qed.

(** X3. In every reachable state the long break is on only in a cycle
    whose number is a multiple of four, and the short break only in a
    cycle whose number is not. *)
Theorem reachable_break_kind (s : Session) (Hreach : reachable s) :
  (phase s = LongBreak -> cycle s mod 4 = 0) /\
  (phase s = ShortBreak -> cycle s mod 4 <> 0).
Proof.
  destruct Hreach as [cs ->].
  assert (H : forall s0, break_kind_ok s0 -> break_kind_ok (run cs s0)).
  { induction cs as [|c cs IH]; intros s0 H0; cbn; [exact H0|].
    apply IH, perform_break_kind, H0. }
  apply H. split; discriminate.
Qed.

Lemma reachable_break_kind_witness :
  reachable (mkSession 300 ShortBreak 1 false) /\ 1 mod 4 <> 0.
Proof.
  assert (H : reachable (mkSession 300 ShortBreak 1 false)).
  { exists (Start :: repeat Tick 1501 ++ [Pause]). vm_compute. reflexivity. }
  split; [exact H|].
  apply (reachable_break_kind _ H). reflexivity.
Defined.

Lemma running_only_by_command_witness :
  running (mkSession 1500 Work 1 false) = true \/ In Start [Tick; Start; Tick].
Proof.
  apply (running_only_by_command [Tick; Start; Tick]
           (mkSession 1500 Work 1 false)).
  reflexivity.
Defined.

Lemma ticks_phase_end (s : Session) :
  running s = true -> 0 <= timeLeft s ->
  ticks (S (Z.to_nat (timeLeft s))) s =
  if phase_eqb (phase s) Work then
    mkSession (if cycle s mod 4 =? 0 then 900 else 300)
              (if cycle s mod 4 =? 0 then LongBreak else ShortBreak)
              (cycle s) true
  else mkSession 1500 Work (cycle s + 1) true.
Proof.
  intros Hrun Hnn.
  destruct (ticks_through_phase s Hrun Hnn) as [_ ->].
  rewrite tick_unfold; cbn [running timeLeft phase cycle Z.ltb Z.compare].
  rewrite rem4_eqb_mod. reflexivity.
Qed.

(** X4. A whole round, for any cycle number [c]: a running work phase
    with 1500 seconds reaches its break on the 1501st tick, the long one
    (900 s) when [c] is a multiple of four and the short one (300 s)
    otherwise, and is back at work with 1500 seconds and cycle [c + 1]
    after 2402 ticks, respectively 1802. *)
Theorem work_break_round (c : Z) :
  let s := mkSession 1500 Work c true in
  ticks 1501 s =
    (if c mod 4 =? 0 then mkSession 900 LongBreak c true
     else mkSession 300 ShortBreak c true) /\
  ticks (if c mod 4 =? 0 then 2402 else 1802) s =
    mkSession 1500 Work (c + 1) true.
Proof.
  intros s.
  assert (H1 : ticks 1501 s =
               if c mod 4 =? 0 then mkSession 900 LongBreak c true
               else mkSession 300 ShortBreak c true).
  { change 1501%nat with (S (Z.to_nat (timeLeft s))).
    rewrite ticks_phase_end by (cbn; (reflexivity || lia)). cbn.
    destruct (c mod 4 =? 0); reflexivity. }
  split; [exact H1|].
  destruct (c mod 4 =? 0).
  - change 2402%nat with (901 + 1501)%nat. rewrite ticks_add, H1.
    change 901%nat with
      (S (Z.to_nat (timeLeft (mkSession 900 LongBreak c true)))).
    rewrite ticks_phase_end by (cbn; (reflexivity || lia)). reflexivity.
  - change 1802%nat with (301 + 1501)%nat. rewrite ticks_add, H1.
    change 301%nat with
      (S (Z.to_nat (timeLeft (mkSession 300 ShortBreak c true)))).
    rewrite ticks_phase_end by (cbn; (reflexivity || lia)). reflexivity.
Qed.

Lemma ticks_paused (n : nat) (s : Session) :
  running s = false -> ticks n s = s.
Proof.
  intros Hrun. induction n as [|n IH]; [reflexivity|].
  rewrite ticks_S, IH, tick_unfold, Hrun. reflexivity.
Qed.

(** X5. Pausing loses no time and gains none: a running timer that is
    ticked [n] times, paused, left for any number [m] of ticks, started
    again and ticked [k] times is where [n + k] ticks without the pause
    would have brought it. *)
Theorem pause_resume (s : Session) (n m k : nat)
  (Hrun : running s = true) :
  ticks k (exec start (ticks m (exec pause (ticks n s)))) = ticks (n + k) s.
Proof.
  rewrite (ticks_paused m) by reflexivity.
  replace (exec start (exec pause (ticks n s))) with (ticks n s).
  - rewrite Nat.add_comm. symmetry. apply ticks_add.
  - pose proof (ticks_running n s) as H. rewrite Hrun in H.
    destruct (ticks n s) as [t p c r]. cbn in H. subst r. reflexivity.
Qed.

Lemma pause_resume_witness :
  ticks 2 (exec start (ticks 7 (exec pause (ticks 3 started)))) =
  ticks (3 + 2) started.
Proof. apply (pause_resume started 3 7 2). reflexivity. Defined.

(** X7. The time shown is the time the phase still lasts: a running
    timer with [t] seconds left keeps its phase and cycle number through
    the next [t] ticks and leaves the phase on the tick after them. *)
Theorem phase_lasts (s : Session)
  (Hrun : running s = true) (Hnn : 0 <= timeLeft s) :
  (forall n, Z.of_nat n <= timeLeft s ->
     phase (ticks n s) = phase s /\ cycle (ticks n s) = cycle s /\
     timeLeft (ticks n s) = timeLeft s - Z.of_nat n) /\
  phase (ticks (S (Z.to_nat (timeLeft s))) s) <> phase s.
Proof.
  split.
  - intros n Hn. rewrite ticks_countdown by assumption.
    cbn. auto.
  - rewrite ticks_phase_end by assumption.
    destruct (phase s); cbn; try discriminate.
    destruct (cycle s mod 4 =? 0); discriminate.
Qed.

Lemma phase_lasts_witness :
  phase (ticks 2 (mkSession 2 LongBreak 4 true)) = LongBreak /\
  phase (ticks 3 (mkSession 2 LongBreak 4 true)) <> LongBreak.
Proof.
  assert (Hnn : 0 <= timeLeft (mkSession 2 LongBreak 4 true))
    by (cbn; lia).
  destruct (phase_lasts (mkSession 2 LongBreak 4 true) eq_refl Hnn)
    as [Hkeep Hend].
  split; [apply (Hkeep 2%nat); cbn; lia | exact Hend].
Defined.

(** The digit characters are distinct. *)
Lemma digit_char_inj (a b : Z) :
  0 <= a < 10 -> 0 <= b < 10 -> digit_char a = digit_char b -> a = b.
Proof.
  intros Ha Hb H. unfold digit_char in H.
  apply (f_equal nat_of_ascii) in H.
  rewrite !nat_ascii_embedding in H by lia. lia.
Qed.

Lemma two_digits_inj (a b : Z) :
  0 <= a < 100 -> 0 <= b < 100 -> two_digits a = two_digits b -> a = b.
Proof.
  intros Ha Hb. unfold two_digits.
  replace (a <? 100) with true by (symmetry; apply Z.ltb_lt; lia).
  replace (b <? 100) with true by (symmetry; apply Z.ltb_lt; lia).
  intros H. injection H as Hten Hunit.
  apply digit_char_inj in Hten;
    [| split; [apply Z.div_pos; lia | apply Z.div_lt_upper_bound; lia] ..].
  apply digit_char_inj in Hunit; [| apply Z.mod_pos_bound; lia ..].
  rewrite (Z.div_mod a 10), (Z.div_mod b 10) by lia. lia.
Qed.

(** X6. The display determines the remaining time: two reachable states
    that show the same minutes and seconds have the same number of
    seconds left. *)
Theorem display_determines_time (s1 s2 : Session)
  (H1 : reachable s1) (H2 : reachable s2)
  (Hsame : display s1 = display s2) :
  timeLeft s1 = timeLeft s2.
Proof.
  assert (Hb : forall s, reachable s -> 0 <= timeLeft s <= 1500).
  { intros s [cs ->].
    pose proof (run_in_bounds cs initial initial_in_bounds) as [[Hlo Hhi] _].
    split; [exact Hlo|].
    destruct (phase (run cs initial)); cbn in Hhi; lia. }
  pose proof (Hb _ H1) as B1. pose proof (Hb _ H2) as B2.
  rewrite !display_two_digits_eq in Hsame by lia.
  injection Hsame as Hmin Hsec.
  assert (D1 : 0 <= timeLeft s1 / 60 < 100)
    by (split; [apply Z.div_pos | apply Z.div_lt_upper_bound]; lia).
  assert (D2 : 0 <= timeLeft s2 / 60 < 100)
    by (split; [apply Z.div_pos | apply Z.div_lt_upper_bound]; lia).
  pose proof (Z.mod_pos_bound (timeLeft s1) 60 ltac:(lia)) as M1.
  pose proof (Z.mod_pos_bound (timeLeft s2) 60 ltac:(lia)) as M2.
  apply two_digits_inj in Hmin; [| lia ..].
  apply two_digits_inj in Hsec; [| lia ..].
  rewrite (Z.div_mod (timeLeft s1) 60), (Z.div_mod (timeLeft s2) 60) by lia.
  lia.
Qed.

Lemma display_determines_time_witness :
  timeLeft (mkSession 1499 Work 1 true) =
  timeLeft (mkSession 1499 Work 1 false).
Proof.
  apply display_determines_time.
  - exists [Start; Tick]. reflexivity.
  - exists [Start; Tick; Pause]. reflexivity.
  - reflexivity.
Defined.

(** * The realtime handlers of the board *)

Lemma on_DELETE_absent (i : string) (prev : list Task.t) :
  (forall t, In t prev -> Task.id t <> i) -> Kanban.on_DELETE i prev = prev.
Proof.
  intros Habs. unfold Kanban.on_DELETE.
  induction prev as [|t prev IH]; [reflexivity|]. cbn.
  destruct (String.eqb_spec (Task.id t) i) as [He | Hne].
  - exfalso. apply (Habs t); [left; reflexivity | exact He].
  - cbn. f_equal. apply IH. intros u Hu. apply Habs. right. exact Hu.
Qed.

(** X8. After a DELETE for an id no row with that id is left and the
    other rows are all there; a DELETE for an id that no row has changes
    nothing; and an INSERT followed by the DELETE of the inserted row's
    id gives the list back when no earlier row had that id. *)
Theorem realtime_delete (i : string) (prev : list Task.t) :
  (forall t, In t (Kanban.on_DELETE i prev) <->
             In t prev /\ Task.id t <> i) /\
  ((forall t, In t prev -> Task.id t <> i) ->
     Kanban.on_DELETE i prev = prev) /\
  (forall n, Task.id n = i ->
     (forall t, In t prev -> Task.id t <> i) ->
     Kanban.on_DELETE i (Kanban.on_INSERT n prev) = prev).
Proof.
  split; [|split].
  - intros t. unfold Kanban.on_DELETE. rewrite filter_In.
    rewrite negb_true_iff, String.eqb_neq. reflexivity.
  - apply on_DELETE_absent.
  - intros n Hn Habs. unfold Kanban.on_INSERT, Kanban.on_DELETE.
    rewrite filter_app. cbn. rewrite Hn, String.eqb_refl. cbn.
    rewrite app_nil_r. apply on_DELETE_absent, Habs.
Qed.

(** X9. An UPDATE keeps the number and the order of the rows and their
    ids; every row with the id of the new row is the new row afterwards,
    every other row is as before; and an UPDATE for an id that no row has
    changes nothing: the row is not added. *)
Theorem realtime_update (n : Task.t) (prev : list Task.t) :
  map Task.id (Kanban.on_UPDATE n prev) = map Task.id prev /\
  (forall t, In t (Kanban.on_UPDATE n prev) ->
             Task.id t = Task.id n -> t = n) /\
  (forall t, In t prev -> Task.id t <> Task.id n ->
             In t (Kanban.on_UPDATE n prev)) /\
  ((forall t, In t prev -> Task.id t <> Task.id n) ->
     Kanban.on_UPDATE n prev = prev).
Proof.
  unfold Kanban.on_UPDATE.
  split; [|split; [|split]].
  - rewrite map_map. apply map_ext. intros t.
    destruct (String.eqb_spec (Task.id t) (Task.id n)); congruence.
  - intros t Hin Hid. apply in_map_iff in Hin as (u & Hu & _).
    destruct (String.eqb_spec (Task.id u) (Task.id n)); congruence.
  - intros t Hin Hne. apply in_map_iff. exists t. split; [|exact Hin].
    apply String.eqb_neq in Hne. rewrite Hne. reflexivity.
  - intros Habs. rewrite <- (map_id prev) at 2. apply map_ext_in.
    intros t Hin. apply Habs, String.eqb_neq in Hin. rewrite Hin.
    reflexivity.
Qed.

(** X10. Of two UPDATEs for the same id the later one wins: the result
    is that of the later one alone. *)
Theorem realtime_update_last_wins (n1 n2 : Task.t) (prev : list Task.t)
  (Hid : Task.id n1 = Task.id n2) :
  Kanban.on_UPDATE n2 (Kanban.on_UPDATE n1 prev) = Kanban.on_UPDATE n2 prev.
Proof.
  unfold Kanban.on_UPDATE. rewrite map_map. apply map_ext. intros t.
  rewrite Hid.
  destruct (String.eqb (Task.id t) (Task.id n2)) eqn:Ht;
    [rewrite <- Hid, Hid, String.eqb_refl | rewrite Ht]; reflexivity.
Qed.

Lemma realtime_update_last_wins_witness :
  Kanban.on_UPDATE (example_task "a" "concluido" None)
    (Kanban.on_UPDATE (example_task "a" "em_andamento" None)
       [example_task "a" "pendente" None; example_task "b" "pendente" None])
  = [example_task "a" "concluido" None; example_task "b" "pendente" None].
Proof.
  rewrite (realtime_update_last_wins
             (example_task "a" "em_andamento" None)
             (example_task "a" "concluido" None)) by reflexivity.
  reflexivity.
Defined.

(** * The board: filters, columns and drops *)

Section Board.

Context {P : Platform}.

Lemma matches_with_status (f : Kanban.Filters) (t : Task.t) (c : string) :
  Kanban.matches f (Task.with_status t c) = Kanban.matches f t.
Proof. reflexivity. Qed.

(** X11. With the filters of the first render every task is shown, in
    the order fetched; and emptying filter fields never hides a task that
    was shown. *)
Theorem filters_relaxed (tasks : list Task.t) :
  Kanban.filteredTasks tasks Kanban.noFilters = tasks /\
  (forall f g t, relaxes g f ->
     In t (Kanban.filteredTasks tasks f) ->
     In t (Kanban.filteredTasks tasks g)).
Proof.
  split.
  - unfold Kanban.filteredTasks.
    induction tasks as [|t tasks IH]; [reflexivity|].
    cbn. f_equal. exact IH.
  - intros f g t (Hs & Hc & Hu & Hp & Ht & Hf & Hd).
    unfold Kanban.filteredTasks. rewrite !filter_In.
    intros [Hin Hm]. split; [exact Hin|].
    unfold Kanban.matches in *.
    repeat (apply andb_true_iff in Hm as [Hm ?]).
    repeat (apply andb_true_iff; split);
      match goal with
      | Hor : ?x = ""%string \/ ?x = _ |- context [truthy ?x] =>
          destruct Hor as [-> | ->]; [reflexivity | assumption]
      end.
Qed.

Lemma in_columns (ft : list Task.t) (col : Kanban.Column) :
  In col (Kanban.columns ft) ->
  In (Kanban.id col) Kanban.statuses /\
  Kanban.tasks col =
    filter (fun task => String.eqb (Task.status task) (Kanban.id col)) ft.
Proof.
  unfold Kanban.columns. intros Hin.
  apply in_map_iff in Hin as (st & <- & Hst). cbn. auto.
Qed.

Lemma status_count (ft : list Task.t) :
  (List.length (filter (fun t => String.eqb (Task.status t) "pendente") ft) +
   (List.length
      (filter (fun t => String.eqb (Task.status t) "em_andamento") ft) +
    (List.length
       (filter (fun t => String.eqb (Task.status t) "concluido") ft) + 0)) +
   List.length
     (filter (fun t => negb (existsb (String.eqb (Task.status t))
                                     Kanban.statuses)) ft))%nat
  = List.length ft.
Proof.
  induction ft as [|t ft IH]; [reflexivity|].
  cbn [filter existsb Kanban.statuses].
  destruct (String.eqb_spec (Task.status t) "pendente") as [E1 | N1];
    destruct (String.eqb_spec (Task.status t) "em_andamento") as [E2 | N2];
    destruct (String.eqb_spec (Task.status t) "concluido") as [E3 | N3];
    try (rewrite E1 in *; discriminate);
    try (rewrite E2 in *; discriminate);
    cbn [orb negb List.length]; cbn [Kanban.statuses existsb] in IH; lia.
Qed.

(** X12. The board has the three columns pendente, em_andamento and
    concluido, in this order.  A column holds exactly the shown tasks of
    its status, so no task is in two columns; and a shown task whose
    status is none of the three is in no column: the sizes of the columns
    and the number of such tasks add up to the number of shown tasks. *)
Theorem columns_partition (ft : list Task.t) :
  map Kanban.id (Kanban.columns ft) = Kanban.statuses /\
  (forall col t, In col (Kanban.columns ft) ->
     (In t (Kanban.tasks col) <->
      In t ft /\ Task.status t = Kanban.id col)) /\
  (list_sum (map (fun col => List.length (Kanban.tasks col))
                 (Kanban.columns ft)) +
   List.length
     (filter (fun t => negb (existsb (String.eqb (Task.status t))
                                     Kanban.statuses)) ft))%nat
  = List.length ft.
Proof.
  split; [reflexivity|]. split.
  - intros col t Hcol. destruct (in_columns _ _ Hcol) as [_ ->].
    rewrite filter_In, String.eqb_eq. reflexivity.
  - exact (status_count ft).
Qed.

Lemma handleDragEnd_fires (ev : Kanban.DragEndEvent) (tasks : list Task.t)
  (c : string) :
  Kanban.over_id ev = Some c -> Kanban.active_status ev <> Some c ->
  Kanban.handleDragEnd ev tasks =
  (map (fun t => if String.eqb (Task.id t) (Kanban.active_id ev)
                 then Task.with_status t c else t) tasks,
   Some (Kanban.mkUpdateRequest c (Kanban.active_id ev))).
Proof.
  intros Hover Hst. unfold Kanban.handleDragEnd. rewrite Hover.
  destruct (Kanban.active_status ev) as [st|]; [|reflexivity].
  destruct (String.eqb_spec st c) as [-> | _];
    [contradiction Hst; reflexivity | reflexivity].
Qed.

(** X13. Dropping a shown card on another column moves it there: the
    request sets the status of the card's id to the column's id, the
    list keeps its rows' ids and order, and on the board computed from
    the new list the card, with its new status, is in the column it was
    dropped on and no card with its id is in another column. *)
Theorem drop_moves_card (f : Kanban.Filters) (tasks : list Task.t)
  (ev : Kanban.DragEndEvent) (c : string) (t : Task.t)
  (Hover : Kanban.over_id ev = Some c)
  (Hfrom : Kanban.active_status ev <> Some c)
  (Hcol : In c Kanban.statuses)
  (Hin : In t tasks) (Hid : Task.id t = Kanban.active_id ev)
  (Hshown : Kanban.matches f t = true) :
  snd (Kanban.handleDragEnd ev tasks) =
    Some (Kanban.mkUpdateRequest c (Kanban.active_id ev)) /\
  map Task.id (fst (Kanban.handleDragEnd ev tasks)) = map Task.id tasks /\
  forall col,
    In col (Kanban.columns
              (Kanban.filteredTasks (fst (Kanban.handleDragEnd ev tasks)) f)) ->
    (In (Task.with_status t c) (Kanban.tasks col) <-> Kanban.id col = c) /\
    (Kanban.id col <> c ->
     forall u, In u (Kanban.tasks col) -> Task.id u <> Kanban.active_id ev).
Proof.
  rewrite (handleDragEnd_fires ev tasks c Hover Hfrom). cbn [fst snd].
  split; [reflexivity|]. split.
  - rewrite map_map. apply map_ext. intros u.
    destruct (String.eqb (Task.id u) (Kanban.active_id ev)); reflexivity.
  - intros col Hc. destruct (in_columns _ _ Hc) as [_ ->].
    unfold Kanban.filteredTasks. split.
    + rewrite !filter_In, matches_with_status, String.eqb_eq. cbn.
      split; [intros (_ & H); symmetry; exact H|].
      intros Hsame. split; [split; [|exact Hshown] | symmetry; exact Hsame].
      apply in_map_iff. exists t. split; [|exact Hin].
      rewrite Hid, String.eqb_refl. reflexivity.
    + intros Hne u Hu. rewrite !filter_In, String.eqb_eq in Hu.
      destruct Hu as ((Hmap & _) & Hst).
      apply in_map_iff in Hmap as (v & Hv & _).
      destruct (String.eqb_spec (Task.id v) (Kanban.active_id ev))
        as [He | Hn]; subst u; [|exact Hn].
      cbn in Hst. congruence.
Qed.

(** X14. A drop touches nothing but statuses: whatever the event, the
    new list has the old rows in the old order, each identical to the old
    one but possibly for its status, and rows with another id than the
    dragged one are untouched.  Without a request (nothing under the
    pointer, or the card's own column) the list is the old one. *)
Theorem drop_frame (ev : Kanban.DragEndEvent) (tasks : list Task.t) :
  Forall2 (fun old new =>
             new = Task.with_status old (Task.status new) /\
             (Task.id old <> Kanban.active_id ev -> new = old))
          tasks (fst (Kanban.handleDragEnd ev tasks)) /\
  (snd (Kanban.handleDragEnd ev tasks) = None <->
   Kanban.over_id ev = None \/
   Kanban.active_status ev = Kanban.over_id ev) /\
  (snd (Kanban.handleDragEnd ev tasks) = None ->
   fst (Kanban.handleDragEnd ev tasks) = tasks).
Proof.
  assert (Hsame : Forall2 (fun old new =>
                    new = Task.with_status old (Task.status new) /\
                    (Task.id old <> Kanban.active_id ev -> new = old))
                  tasks tasks).
  { induction tasks as [|t tasks IH]; constructor; [|exact IH].
    split; [destruct t; reflexivity | reflexivity]. }
  unfold Kanban.handleDragEnd.
  destruct (Kanban.over_id ev) as [c|]; cbn [fst snd];
    [| split; [exact Hsame | split; [tauto | reflexivity]]].
  destruct (Kanban.active_status ev) as [st|].
  - destruct (String.eqb_spec st c) as [-> | Hne]; cbn [fst snd].
    + split; [exact Hsame | split; [tauto | reflexivity]].
    + split; [| split; [| discriminate]].
      * clear Hsame. induction tasks as [|t tasks IH]; constructor;
          [|exact IH].
        destruct (String.eqb_spec (Task.id t) (Kanban.active_id ev));
          split; try reflexivity; try contradiction.
        destruct t; reflexivity.
      * split; [discriminate|]. intros [H | H]; [discriminate | congruence].
  - cbn [fst snd]. split; [| split; [| discriminate]].
    + clear Hsame. induction tasks as [|t tasks IH]; constructor;
        [|exact IH].
      destruct (String.eqb_spec (Task.id t) (Kanban.active_id ev));
        split; try reflexivity; try contradiction.
      destruct t; reflexivity.
    + split; [discriminate|]. intros [H | H]; discriminate.
Qed.

End Board.

(** * Dates in the filters and on the dashboard *)

Section Dates.

Context {P : Platform}.

Lemma truthy_nonempty (s : string) : s <> ""%string -> truthy s = true.
Proof.
  intros H. unfold truthy. apply negb_true_iff, String.eqb_neq, H.
Qed.

Lemma matches_date_false (f : Kanban.Filters) (t : Task.t) :
  (Kanban.dateFrom f <> ""%string /\
   time_ge (Date_value (Task.start_at t))
           (Date_parse (Kanban.dateFrom f)) = false) \/
  (Kanban.dateTo f <> ""%string /\
   time_le (Date_value (Task.start_at t))
           (Date_parse (Kanban.dateTo f)) = false) ->
  Kanban.matches f t = false.
Proof.
  unfold Kanban.matches.
  intros [[Hne Hcmp] | [Hne Hcmp]];
    rewrite (truthy_nonempty _ Hne), Hcmp;
    rewrite ?andb_false_r; reflexivity.
Qed.

(** X15. A task without a start date is dated at the epoch, 1 January
    1970: a from-date after the epoch hides it, while a to-date on or
    after the epoch, alone, shows it. *)
Theorem undated_task_at_epoch (f : Kanban.Filters) (t : Task.t) (d : Z)
  (Hnull : Task.start_at t = None) :
  (Kanban.dateFrom f <> ""%string ->
   Date_parse (Kanban.dateFrom f) = Some d -> 0 < d ->
   Kanban.matches f t = false) /\
  (f = Kanban.mkFilters "" "" "" "" "" "" (Kanban.dateTo f) ->
   Date_parse (Kanban.dateTo f) = Some d -> 0 <= d ->
   Kanban.matches f t = true).
Proof.
  split.
  - intros Hne Hparse Hpos. apply matches_date_false. left.
    split; [exact Hne|]. rewrite Hnull, Hparse. cbn.
    apply Z.leb_gt. exact Hpos.
  - intros -> Hparse Hnn. unfold Kanban.matches. cbn in *.
    rewrite Hnull, Hparse. cbn.
    destruct (truthy (Kanban.dateTo f)); [|reflexivity].
    apply Z.leb_le. exact Hnn.
Qed.

(** X16. A date that cannot be parsed compares false with everything:
    while a from-date or a to-date is set, a task whose start date cannot
    be parsed is hidden, and a from-date or to-date that cannot be parsed
    itself hides every task. *)
Theorem unparsable_date_hides (f : Kanban.Filters) (t : Task.t)
  (Hset : Kanban.dateFrom f <> ""%string /\
          (Date_parse (Kanban.dateFrom f) = None \/
           Date_value (Task.start_at t) = None) \/
          Kanban.dateTo f <> ""%string /\
          (Date_parse (Kanban.dateTo f) = None \/
           Date_value (Task.start_at t) = None)) :
  Kanban.matches f t = false.
Proof.
  apply matches_date_false.
  destruct Hset as [[Hne [Hbad | Hbad]] | [Hne [Hbad | Hbad]]];
    [left | left | right | right]; (split; [exact Hne|]);
    rewrite Hbad; unfold time_ge, time_le;
    try reflexivity;
    destruct (Date_value (Task.start_at t)); try reflexivity;
    destruct (Date_parse _); reflexivity.
Qed.

Lemma filter_disjoint_length {A : Type} (p q : A -> bool) (l : list A) :
  (forall x, p x = true -> q x = false) ->
  (List.length (filter p l) + List.length (filter q l) <= List.length l)%nat.
Proof.
  intros Hdisj. induction l as [|x l IH]; [cbn; lia|].
  cbn. destruct (p x) eqn:Hp.
  - rewrite (Hdisj x Hp). cbn. lia.
  - destruct (q x); cbn; lia.
Qed.

Lemma nodup_length_le {A : Type} (dec : forall x y : A, {x = y} + {x <> y})
  (l : list A) :
  (List.length (nodup dec l) <= List.length l)%nat.
Proof.
  induction l as [|x l IH]; [cbn; lia|].
  cbn. destruct (in_dec dec x l); cbn; lia.
Qed.

(** X17. The numbers of the dashboard fit together: the completed and
    the pending tasks are different tasks, no completed task counts as
    overdue, so each pair adds up to at most the total; there are at most
    as many active clients as tasks, and at least one as soon as there is
    a task; and the recent tasks are the first five, or all when there
    are fewer. *)
Theorem metrics_bounds (now : Z) (tasks : list Task.t) :
  let m := Dashboard.metrics now tasks in
  (Dashboard.completed m + Dashboard.pending m <= Dashboard.total m)%nat /\
  (Dashboard.completed m + Dashboard.overdue m <= Dashboard.total m)%nat /\
  (Dashboard.activeClients m <= Dashboard.total m)%nat /\
  (tasks <> [] -> (1 <= Dashboard.activeClients m)%nat) /\
  List.length (Dashboard.recent tasks) = Nat.min 5 (Dashboard.total m) /\
  (exists rest, tasks = Dashboard.recent tasks ++ rest).
Proof.
  unfold Dashboard.metrics.
  cbn [Dashboard.total Dashboard.completed Dashboard.pending
       Dashboard.overdue Dashboard.activeClients].
  split; [|split; [|split; [|split; [|split]]]].
  - apply filter_disjoint_length. intros t Ht.
    apply String.eqb_eq in Ht. rewrite Ht. reflexivity.
  - apply filter_disjoint_length. intros t Ht.
    unfold Dashboard.is_overdue. rewrite Ht. apply andb_false_r.
  - unfold Dashboard.Set_size.
    rewrite <- (length_map Task.client_id tasks). apply nodup_length_le.
  - intros Hne. unfold Dashboard.Set_size.
    destruct tasks as [|t tasks]; [contradiction Hne; reflexivity|].
    assert (Hin : In (Task.client_id t)
                     (nodup Dashboard.same_value
                            (map Task.client_id (t :: tasks))))
      by (apply nodup_In; left; reflexivity).
    destruct (nodup Dashboard.same_value (map Task.client_id (t :: tasks)));
      [destruct Hin | cbn; lia].
  - unfold Dashboard.recent. apply length_firstn.
  - exists (skipn 5 tasks). unfold Dashboard.recent.
    symmetry. apply firstn_skipn.
Qed.

(** X18. A task without a deadline that is not completed counts as
    overdue at any time after the epoch, since its deadline is read as
    1 January 1970; a task whose deadline cannot be parsed never does. *)
Theorem task_without_deadline_overdue (now : Z) (tasks : list Task.t)
  (t : Task.t) (Hin : In t tasks) :
  (Task.end_at t = None -> Task.status t <> "concluido"%string ->
   0 < now ->
   (1 <= Dashboard.overdue (Dashboard.metrics now tasks))%nat) /\
  (Date_value (Task.end_at t) = None ->
   Dashboard.is_overdue now t = false).
Proof.
  split.
  - intros Hnull Hst Hnow. cbn.
    assert (Ht : In t (filter (Dashboard.is_overdue now) tasks)).
    { apply filter_In. split; [exact Hin|].
      unfold Dashboard.is_overdue. rewrite Hnull. cbn.
      apply andb_true_iff. split; [apply Z.ltb_lt, Hnow|].
      apply negb_true_iff, String.eqb_neq, Hst. }
    destruct (filter (Dashboard.is_overdue now) tasks);
      [destruct Ht | cbn; lia].
  - intros Hbad. unfold Dashboard.is_overdue. rewrite Hbad. reflexivity.
Qed.

End Dates.

(** X19. Tasks without a client count as one client: when there are
    tasks and none has a client, the dashboard shows one active
    client. *)
Theorem no_client_counts_as_one (tasks : list Task.t)
  (Hne : tasks <> [])
  (Hnull : forall t, In t tasks -> Task.client_id t = None) :
  Dashboard.Set_size (map Task.client_id tasks) = 1%nat.
Proof.
  assert (Hall : forall xs : list (option string),
            xs <> [] -> (forall x, In x xs -> x = None) ->
            nodup Dashboard.same_value xs = [None]).
  { induction xs as [|x xs IH]; intros Hn Hx;
      [contradiction Hn; reflexivity|].
    rewrite (Hx x (or_introl eq_refl)). cbn [nodup].
    destruct xs as [|y xs].
    - reflexivity.
    - destruct (in_dec Dashboard.same_value None (y :: xs)) as [_ | Hno].
      + apply IH; [discriminate|]. intros z Hz. apply Hx. right. exact Hz.
      + contradiction Hno. left. apply Hx. right. left. reflexivity. }
  unfold Dashboard.Set_size. rewrite Hall; [reflexivity | |].
  - destruct tasks; [contradiction Hne; reflexivity | discriminate].
  - intros x Hx. apply in_map_iff in Hx as (t & <- & Ht).
    apply Hnull, Ht.
Qed.

(** * The agenda *)

Lemma includes_T_cons (c : ascii) (s : string) :
  includes (String c s) "T" = false ->
  Ascii.eqb c "T" = false /\ includes s "T" = false.
Proof.
  cbn [includes prefix]. intros H. apply orb_false_iff in H as [Hp Hs].
  split; [|exact Hs].
  destruct (Ascii.eqb_spec c "T") as [-> | _]; [|reflexivity].
  cbn in Hp. destruct s; discriminate Hp.
Qed.

Lemma before_T_app (d rest : string) :
  includes d "T" = false ->
  Agenda.before_T (d ++ String "T" rest)%string = d /\ Agenda.before_T d = d.
Proof.
  induction d as [|c d IH]; intros H; [split; reflexivity|].
  apply includes_T_cons in H as [Hc Hd]. cbn. rewrite Hc.
  destruct (IH Hd) as [-> ->]. split; reflexivity.
Qed.

Lemma before_T_inv (s : string) :
  s = Agenda.before_T s \/
  exists rest, s = (Agenda.before_T s ++ String "T" rest)%string.
Proof.
  induction s as [|c s IH]; [left; reflexivity|]. cbn.
  destruct (Ascii.eqb_spec c "T") as [-> | _].
  - right. exists s. reflexivity.
  - destruct IH as [IH | [rest IH]].
    + left. cbn. f_equal. exact IH.
    + right. exists rest. cbn. f_equal. exact IH.
Qed.

Lemma dailyEvents_spec (evs : list Event.t) (D : string) (ev : Event.t) :
  includes D "T" = false ->
  (In ev (Agenda.dailyEvents evs D) <->
   In ev evs /\
   exists s, Event.start_at ev = Some s /\
             (s = D \/ exists rest, s = (D ++ String "T" rest)%string)).
Proof.
  intros HD. unfold Agenda.dailyEvents. rewrite filter_In.
  split; intros [Hin H]; (split; [exact Hin|]).
  - destruct (Event.start_at ev) as [s|]; [|discriminate H].
    exists s. split; [reflexivity|].
    apply String.eqb_eq in H. subst D. apply before_T_inv.
  - destruct H as (s & -> & [-> | [rest ->]]); apply String.eqb_eq.
    + apply (before_T_app D ""), HD.
    + apply (before_T_app D rest), HD.
Qed.

(** X20. For a selected date without the letter T, as the dates of a
    date input are, the agenda lists exactly the events whose start is
    the selected date, alone or followed by T and a time.  An event
    without a start is never listed. *)
Theorem daily_events_listed (evs : list Event.t) (D : string) (ev : Event.t)
  (HD : includes D "T" = false) :
  In ev (Agenda.dailyEvents evs D) <->
  In ev evs /\
  exists s, Event.start_at ev = Some s /\
            (s = D \/ exists rest, s = (D ++ String "T" rest)%string).
Proof. exact (dailyEvents_spec evs D ev HD). Qed.

Lemma daily_events_listed_witness :
  In (Event.mk "e1" "Reuniao" (Some "2024-03-01T09:00"%string) None None None)
     (Agenda.dailyEvents
        [Event.mk "e0" "Sem data" None None None None;
         Event.mk "e1" "Reuniao" (Some "2024-03-01T09:00"%string)
                  None None None]
        "2024-03-01").
Proof.
  apply daily_events_listed; [reflexivity|].
  split; [right; left; reflexivity|].
  exists "2024-03-01T09:00"%string. split; [reflexivity|].
  right. exists "09:00"%string. reflexivity.
Defined.

(** X21. A new event shows up on the day it was created for: after
    "Novo Evento" on a selected date (without the letter T) and a save
    that the backend answers with the stored row, whose start is the one
    sent, the row is among the events listed for that date and the modal
    is closed.  When the backend answers with an error the events are as
    before and the modal is closed all the same. *)
Theorem new_event_listed (st : Agenda.State) (ev : Event.t)
  (HD : includes (Agenda.selectedDate st) "T" = false)
  (Hecho : Event.start_at ev =
           Some (Agenda.new_start_at
                   (Agenda.insert_row (Agenda.form (Agenda.openModal st))))) :
  let saved := Agenda.saveEvent (Agenda.openModal st) (Agenda.Ok [ev]) in
  In ev (Agenda.dailyEvents (Agenda.events saved)
                            (Agenda.selectedDate saved)) /\
  Agenda.modalOpen saved = false /\
  forall message,
    let failed :=
      Agenda.saveEvent (Agenda.openModal st) (Agenda.Err message) in
    Agenda.events failed = Agenda.events st /\
    Agenda.modalOpen failed = false.
Proof.
  cbn -[Agenda.dailyEvents].
  split; [| split; [reflexivity | intros; split; reflexivity]].
  apply dailyEvents_spec; [exact HD|].
  split; [apply in_or_app; right; left; reflexivity|].
  eexists. split; [exact Hecho|]. cbn.
  right. exists "09:00"%string. reflexivity.
Qed.

Lemma new_event_listed_witness :
  In (Event.mk "e1" "" (Some "2024-03-01T09:00"%string)
               (Some "2024-03-01T10:00"%string) None None)
     (Agenda.dailyEvents
        (Agenda.events
           (Agenda.saveEvent
              (Agenda.openModal
                 (Agenda.mkState [] "2024-03-01" false
                                 (Agenda.mkForm "" "" "" "" "")))
              (Agenda.Ok [Event.mk "e1" "" (Some "2024-03-01T09:00"%string)
                                   (Some "2024-03-01T10:00"%string)
                                   None None])))
        "2024-03-01").
Proof.
  apply (new_event_listed
           (Agenda.mkState [] "2024-03-01" false
                           (Agenda.mkForm "" "" "" "" ""))
           (Event.mk "e1" "" (Some "2024-03-01T09:00"%string)
                     (Some "2024-03-01T10:00"%string) None None));
    reflexivity.
Defined.

(** * Examples on the example platform *)

Lemma drop_moves_card_witness :
  let tasks := [example_task "a" "pendente" None;
                example_task "b" "pendente" None] in
  let ev := Kanban.mkDragEndEvent "a" (Some "pendente"%string)
                                  (Some "concluido"%string) in
  snd (Kanban.handleDragEnd ev tasks) =
    Some (Kanban.mkUpdateRequest "concluido" "a") /\
  map Task.id (fst (Kanban.handleDragEnd ev tasks)) = ["a"; "b"]%string.
Proof.
  intros tasks ev.
  destruct (@drop_moves_card example_platform Kanban.noFilters tasks ev
              "concluido" (example_task "a" "pendente" None))
    as (Hreq & Hids & _).
  - reflexivity.
  - discriminate.
  - right. right. left. reflexivity.
  - left. reflexivity.
  - reflexivity.
  - reflexivity.
  - split; [exact Hreq | exact Hids].
Defined.

Lemma undated_task_at_epoch_witness :
  @Kanban.matches example_platform
    (Kanban.mkFilters "" "" "" "" "" "2024-03-01" "")
    (example_task "a" "pendente" None) = false.
Proof.
  apply (@undated_task_at_epoch example_platform
           (Kanban.mkFilters "" "" "" "" "" "2024-03-01" "")
           (example_task "a" "pendente" None) 1709251200000 eq_refl);
    [discriminate | reflexivity | reflexivity].
Defined.

Lemma unparsable_date_hides_witness :
  @Kanban.matches example_platform
    (Kanban.mkFilters "" "" "" "" "" "" "2024-03-15")
    (example_task "a" "pendente" (Some "amanha"%string)) = false.
Proof.
  apply (@unparsable_date_hides example_platform).
  right. split; [discriminate | right; reflexivity].
Defined.

Lemma task_without_deadline_overdue_witness :
  (1 <= Dashboard.overdue
          (@Dashboard.metrics example_platform 1710460800000
             [example_task "a" "pendente" None]))%nat.
Proof.
  apply (@task_without_deadline_overdue example_platform 1710460800000
           [example_task "a" "pendente" None]
           (example_task "a" "pendente" None));
    [left; reflexivity | reflexivity | discriminate | reflexivity].
Defined.

Lemma no_client_counts_as_one_witness :
  Dashboard.Set_size
    (map Task.client_id
       [Task.mk "a" "x" "pendente" None None None None None None;
        Task.mk "b" "y" "concluido" None None None None None None]) = 1%nat.
Proof.
  apply no_client_counts_as_one; [discriminate|].
  intros t [<- | [<- | []]]; reflexivity.
Defined.

Example column_titles :
  map Kanban.title (@Kanban.columns example_platform []) =
  ["Pendente"; "Em andamento"; "Concluido"]%string.
Proof. reflexivity. Qed.

(** * Text filters *)

Lemma prefix_iff (x s : string) :
  prefix x s = true <-> exists b, s = (x ++ b)%string.
Proof.
  revert s. induction x as [|c x IH]; intros s; cbn.
  - split; [intros _; exists s; reflexivity | destruct s; reflexivity].
  - destruct s as [|d s]; [split; [discriminate | intros [b H]; discriminate H]|].
    cbn [prefix]. destruct (ascii_dec c d) as [-> | Hne].
    + rewrite IH. split; intros [b H]; exists b; [f_equal; exact H|].
      injection H as H. exact H.
    + split; [discriminate|]. intros [b H]. injection H as H _.
      contradiction Hne. symmetry. exact H.
Qed.

(** [includes] is the substring test. *)
Lemma includes_iff (s x : string) :
  includes s x = true <-> exists a b, s = (a ++ x ++ b)%string.
Proof.
  induction s as [|c s IH]; cbn [includes]; rewrite orb_true_iff, prefix_iff.
  - split.
    + intros [[b H] | H]; [exists ""%string, b; exact H | discriminate H].
    + intros (a & b & H). left. destruct a; [exists b; exact H|].
      discriminate H.
  - rewrite IH. split.
    + intros [[b H] | (a & b & H)].
      * exists ""%string, b. exact H.
      * exists (String c a), b. cbn. f_equal. exact H.
    + intros (a & b & H). destruct a as [|d a].
      * left. exists b. exact H.
      * right. injection H as _ H. exists a, b. exact H.
Qed.

Section TextFilters.

Context {P : Platform}.


(** X23. A task without tags, or with an empty tag text, is hidden as
    soon as a tag filter is typed, on a platform where lower-casing keeps
    the empty string empty and a non-empty one non-empty. *)
Theorem untagged_task_hidden (f : Kanban.Filters) (t : Task.t)
  (Htags : Task.tags t = None \/ Task.tags t = Some ""%string)
  (Hset : Kanban.tag f <> ""%string)
  (Hempty : toLowerCase "" = ""%string)
  (Hkeep : toLowerCase (Kanban.tag f) <> ""%string) :
  Kanban.matches f t = false.
Proof.
  unfold Kanban.matches.
  rewrite (truthy_nonempty _ Hset).
  assert (Hinc : includes
            (toLowerCase (match Task.tags t with
                          | Some s => if truthy s then s else ""%string
                          | None => ""%string
                          end))
            (toLowerCase (Kanban.tag f)) = false).
  { destruct Htags as [-> | ->]; cbn; rewrite Hempty;
      destruct (toLowerCase (Kanban.tag f));
      [contradiction Hkeep; reflexivity | reflexivity
      | contradiction Hkeep; reflexivity | reflexivity]. }
  rewrite Hinc. rewrite ?andb_false_r. reflexivity.
Qed.

End TextFilters.


Lemma untagged_task_hidden_witness :
  @Kanban.matches example_platform
    (Kanban.mkFilters "" "" "" "" "urgente" "" "")
    (example_task "a" "pendente" None) = false.
Proof.
  apply (@untagged_task_hidden example_platform);
    [left; reflexivity | discriminate | reflexivity | discriminate].
Defined.
